(** * VimDoc: the [App] component of [src/App.tsx]

    The repository is one React function component, [App], that mounts a
    CodeMirror editor with the vim extension and keeps a mode label for
    its status bar.  This file embeds the parts of [App] that carry
    behaviour:

    - the React state cells ([vimMode], [isSidebarOpen], [view]);
    - the [useEffect] body that builds [startState] and the [EditorView];
    - the [updateListener] and the [keydown] DOM handler given to the
      editor as extensions;
    - the status bar of the footer.

    Editing itself (motions, operators, undo history, search) is done by
    the libraries the component loads; [App] has no code for it.  The
    vim extension stands in front of [App]'s key handler in the
    extensions array, so a key reaches that handler only when vim has
    not handled it. *)

From Stdlib Require Import String Ascii List Bool Arith Lia DecimalString.
Import ListNotations.
Local Open Scope string_scope.
Local Open Scope list_scope.

(** ** The part of the CodeMirror API that [App] calls

    Library code, outside the repository.  Only what the component reads
    is described: a document is a sequence of lines, a position is an
    offset into the document, and [doc.lineAt(pos)] is the line around
    an offset. *)
Module CodeMirror.

Definition LF : string := String (ascii_of_nat 10) "".

(** [Text]: the lines of the document, without their line breaks. *)
Definition Text := list string.

(** The default line splitting of [EditorState.create] for a string
    [doc]: a break is CR LF, CR or LF.  [cur] is the line read so far. *)
Fixpoint split_lines (cur : string) (s : string) : list string :=
  match s with
  | EmptyString => [cur]
  | String c rest =>
      if Ascii.eqb c (ascii_of_nat 10) then cur :: split_lines "" rest
      else if Ascii.eqb c (ascii_of_nat 13) then
        match rest with
        | String c' rest' =>
            if Ascii.eqb c' (ascii_of_nat 10)
            then cur :: split_lines "" rest'
            else cur :: split_lines "" rest
        | EmptyString => cur :: split_lines "" rest
        end
      else split_lines (cur ++ String c "") rest
  end.

Definition Text_of_string (s : string) : Text := split_lines "" s.

(** [doc.toString()]: the lines joined by LF. *)
Definition toString (t : Text) : string := String.concat LF t.

(** [Line]: what [doc.lineAt] returns. *)
Record Line := mkLine {
  from : nat;      (* offset of the first character of the line *)
  to : nat;        (* offset of the end of the line, before the break *)
  number : nat;    (* 1-based line number *)
  text : string
}.

Fixpoint lineAt_from (lines : list string) (start n pos : nat) : option Line :=
  match lines with
  | [] => None
  | l :: rest =>
      let stop := start + String.length l in
      if Nat.leb pos stop then Some (mkLine start stop n l)
      else lineAt_from rest (S stop) (S n) pos
  end.

(** [doc.lineAt(pos)]; [None] stands for the RangeError raised when
    [pos] is outside the document. *)
Definition lineAt (t : Text) (pos : nat) : option Line := lineAt_from t 0 1 pos.

(** [EditorState], as far as [App] reads it: [state.doc] and
    [state.selection.main.head]. *)
Record EditorState := mkEditorState {
  doc : Text;
  selection_main_head : nat
}.

(** [EditorState.create({doc, extensions})]: the document is the split
    text and the selection is a cursor at offset 0. *)
Definition EditorState_create (doc : string) : EditorState :=
  mkEditorState (Text_of_string doc) 0.

(** [ViewUpdate]: the argument of an update listener. *)
Record ViewUpdate := mkViewUpdate {
  docChanged : bool;
  selectionSet : bool;
  state : EditorState
}.

(** A DOM keyboard event; the handler reads [event.key] only. *)
Record KeyboardEvent := mkKeyboardEvent { key : string }.

End CodeMirror.
Import CodeMirror.

(** ** React state of the component and a state monad over it *)

(** The mutable cells of [App]: the three [useState] cells.  The [view]
    cell holds the [EditorView]; its editor state is what matters
    here. *)
Record Store := mkStore {
  vimMode : string;               (* useState('NORMAL') *)
  isSidebarOpen : bool;           (* useState(false) *)
  view : option EditorState       (* useState<EditorView | null>(null) *)
}.

(** Handlers are effectful: they may call the state setters. *)
Definition M (A : Type) : Type := Store -> A * Store.

Definition ret {A} (a : A) : M A := fun s => (a, s).
Definition bind {A B} (m : M A) (k : A -> M B) : M B :=
  fun s => let (a, s') := m s in k a s'.
Definition when (b : bool) (m : M unit) : M unit :=
  if b then m else ret tt.

Declare Scope react_scope.
Delimit Scope react_scope with react.
Notation "m1 ;; m2" := (bind m1 (fun _ => m2))
  (at level 61, right associativity) : react_scope.

Definition setVimMode (m : string) : M unit :=
  fun s => (tt, mkStore m (isSidebarOpen s) (view s)).
Definition setIsSidebarOpen (b : bool) : M unit :=
  fun s => (tt, mkStore (vimMode s) b (view s)).
Definition setView (v : EditorState) : M unit :=
  fun s => (tt, mkStore (vimMode s) (isSidebarOpen s) (Some v)).

Definition exec {A} (m : M A) (s : Store) : Store := snd (m s).
Definition eval {A} (m : M A) (s : Store) : A := fst (m s).

(** ** The component *)

(** The literal given as [doc] to [EditorState.create] (line 27 of
    [App.tsx]); each [\n] of the JavaScript literal is an LF here. *)
Definition startDoc : string :=
  String.concat LF
    [ "Welcome to VimDoc.";
      "";
      "This is a minimalist document editor with Vim keybindings.";
      "";
      "Press 'i' to enter INSERT mode.";
      "Press 'Esc' to return to NORMAL mode.";
      "";
      "Try some Vim commands:";
      "- 'dd' to delete a line";
      "- 'u' to undo";
      "- '/' to search";
      "- 'gg' to go to top";
      "- 'G' to go to bottom";
      "";
      "Enjoy the focus." ].

Definition startState : EditorState := EditorState_create startDoc.

(** [EditorView.updateListener.of((update) => ...)], lines 87-94.  The
    listener reads the cursor offset and its line and keeps neither: its
    body ends after the two [const]s. *)
Definition updateListener (update : ViewUpdate) : M unit :=
  when (docChanged update || selectionSet update)
       (let pos := selection_main_head (state update) in
        let line := lineAt (doc (state update)) pos in
        ret tt).

(** [keydown: (event, view) => ...], lines 96-103.  [vimMode] is a free
    variable of the arrow function: it is the [const vimMode] of the
    render in which the function was created, so it is a parameter
    here, fixed when the closure is built.  [view] is not used by the
    body. *)
Definition keydown (vimMode : string) (event : KeyboardEvent)
    (view : EditorState) : M bool :=
  (when (key event =? "Escape") (setVimMode "NORMAL") ;;
   when ((vimMode =? "NORMAL") && ((key event =? "i") || (key event =? "a")))
        (setVimMode "INSERT") ;;
   when ((vimMode =? "NORMAL") && (key event =? "v")) (setVimMode "VISUAL") ;;
   ret false)%react.

(** The handlers that the extensions array registers with the editor. *)
Record Extensions := mkExtensions {
  on_update : ViewUpdate -> M unit;
  on_keydown : KeyboardEvent -> EditorState -> M bool
}.

(** The status bar of the footer, lines 196-219: the class and the text
    of the mode badge, and the position text. *)
Record StatusBar := mkStatusBar {
  mode_class : string;
  mode_label : string;
  position_text : string
}.

(** Props object that React hands to a function component. *)
Definition Props := list (string * string).

(** What one call of [App] produces: the status bar, whether the sidebar
    is in the tree, and the effect closure passed to [useEffect]. *)
Record Rendered := mkRendered {
  status_bar : StatusBar;
  sidebar_shown : bool;
  effect : bool -> option (EditorState * Extensions)
}.

(** [function App()]: one render, from the current cells.  [App]
    declares no parameter, so the props object is dropped.  The argument
    of [effect] says whether [editorRef.current] is attached. *)
Definition App (props : Props) (s : Store) : Rendered :=
  let vimMode := vimMode s in
  let isSidebarOpen := isSidebarOpen s in
  mkRendered
    (mkStatusBar
       (if vimMode =? "INSERT" then "bg-blue-600 text-white"
        else if vimMode =? "VISUAL" then "bg-amber-500 text-white"
        else "bg-black text-white")
       vimMode
       "Line 1, Col 1")
    isSidebarOpen
    (fun editorRef_current =>
       if negb editorRef_current then None
       else Some (startState, mkExtensions updateListener (keydown vimMode))).

(** A mounted component: its cells and the handlers that the live
    editor holds. *)
Record Component := mkComponent {
  store : Store;
  installed : option Extensions
}.

(** [useEffect(f, [])]: with an empty dependency list, React runs [f]
    after the first render only.  [view] is created from [startState]
    and stored with [setView]. *)
Definition useEffect_no_deps (first_render : bool) (r : Rendered)
    (editorRef_current : bool) (c : Component) : Component :=
  if first_render then
    match effect r editorRef_current with
    | Some (st, ext) => mkComponent (exec (setView st) (store c)) (Some ext)
    | None => c
    end
  else c.

(** The cells at the first render: the arguments of the [useState]s. *)
Definition initial_store : Store := mkStore "NORMAL" false None.

(** Mounting: first render, then the effect.  The [div] that carries
    [ref={editorRef}] is rendered unconditionally, so the ref is attached
    when the effect runs. *)
Definition mount (props : Props) : Component :=
  useEffect_no_deps true (App props initial_store) true
    (mkComponent initial_store None).

(** What can happen to a mounted component.

    A keydown goes through the keydown handlers of the extensions in the
    order of the array given to [EditorState.create]: [vim(...)] is its
    first entry (line 29) and [EditorView.domEventHandlers] comes after
    it (line 95); the editor stops calling handlers for an event once
    one of them has handled it.  Which keys vim handles depends on vim's
    own state (library code): a key event carries that outcome. *)
Inductive Event :=
| KeyDown (e : KeyboardEvent) (handled_by_vim : bool)
                                (* a keydown on the editor's DOM *)
| Updated (u : ViewUpdate)      (* the editor applied a transaction *)
| ClickMenu                     (* header button: setIsSidebarOpen(true) *)
| ClickClose.                   (* sidebar button: setIsSidebarOpen(false) *)

(** The handler of [App] run for an event.  A key that vim has handled
    does not reach [App]'s [keydown].  For [Updated], the editor has
    already moved to [update.state] when its listeners are called. *)
Definition handle (c : Component) (ev : Event) : Component :=
  match ev with
  | KeyDown e handled_by_vim =>
      if handled_by_vim then c
      else
        match installed c, view (store c) with
        | Some ext, Some v =>
            mkComponent (exec (on_keydown ext e v) (store c)) (installed c)
        | _, _ => c
        end
  | Updated u =>
      match installed c with
      | Some ext =>
          mkComponent (exec (setView (state u) ;; on_update ext u)%react (store c))
                      (installed c)
      | None => c
      end
  | ClickMenu => mkComponent (exec (setIsSidebarOpen true) (store c)) (installed c)
  | ClickClose => mkComponent (exec (setIsSidebarOpen false) (store c)) (installed c)
  end.

(** One event: its handler, then the re-render that the state change
    causes.  The re-render builds a new effect closure, which
    [useEffect_no_deps] does not run. *)
Definition step (props : Props) (c : Component) (ev : Event) : Component :=
  let c' := handle c ev in
  useEffect_no_deps false (App props (store c')) true c'.

Definition run (props : Props) (evs : list Event) : Component :=
  fold_left (step props) evs (mount props).

(** What is on screen. *)
Definition displayed (props : Props) (c : Component) : StatusBar :=
  status_bar (App props (store c)).

(** A key that vim lets through, as a character typed in its insert
    mode is; and a key that vim handles, as a command of its normal
    mode is, or Escape in its insert mode. *)
Definition typed (k : string) : Event := KeyDown (mkKeyboardEvent k) false.
Definition command (k : string) : Event := KeyDown (mkKeyboardEvent k) true.

(** ** The claims' own notions *)

(** The three labels the handler assigns, and the fourth mode of the
    specification. *)
Definition NORMAL : string := "NORMAL".
Definition INSERT : string := "INSERT".
Definition VISUAL : string := "VISUAL".
Definition REPLACE : string := "REPLACE".

(** Line and column of the cursor, read the way [updateListener] reads
    them ([selection.main.head], then [doc.lineAt]); both 1-based, as in
    the footer's text. *)
Definition cursor_line_col (st : EditorState) : option (nat * nat) :=
  match lineAt (doc st) (selection_main_head st) with
  | Some l => Some (number l, selection_main_head st - from l + 1)
  | None => None
  end.

Definition decimal (n : nat) : string := NilEmpty.string_of_uint (Nat.to_uint n).

(** The footer's position text for a given line and column. *)
Definition position_label (lc : nat * nat) : string :=
  "Line " ++ decimal (fst lc) ++ ", Col " ++ decimal (snd lc).

(** The document on screen, as a string. *)
Definition document_text (c : Component) : option string :=
  option_map (fun st => toString (doc st)) (view (store c)).

(** The handlers built by the first render, in which [vimMode] is the
    initial ['NORMAL']. *)
Definition handlers_at_mount : Extensions :=
  mkExtensions updateListener (keydown "NORMAL").

(** A component whose editor exists and holds the handlers of the first
    render. *)
Definition has_view (s : Store) : bool :=
  match view s with Some _ => true | None => false end.

Definition Mounted (c : Component) : Prop :=
  installed c = Some handlers_at_mount /\ has_view (store c) = true.

Definition is_key_event (ev : Event) : bool :=
  match ev with KeyDown _ _ => true | _ => false end.

(** ** Notions for the further properties *)

(** A keydown that reaches [App]'s handler and is one of the four keys
    the handler compares [event.key] with. *)
Definition is_mode_key (ev : Event) : bool :=
  match ev with
  | KeyDown e handled_by_vim =>
      negb handled_by_vim &&
      ((key e =? "Escape") || (key e =? "i") || (key e =? "a") || (key e =? "v"))
  | _ => false
  end.

(** A click on one of the two buttons that call [setIsSidebarOpen]. *)
Definition is_click (ev : Event) : bool :=
  match ev with
  | ClickMenu | ClickClose => true
  | _ => false
  end.

(** Mounting with the container ref attached or not: the first render,
    then the effect, whose first statement is
    [if (!editorRef.current) return;] (line 24). *)
Definition mount_with (props : Props) (editorRef_current : bool) : Component :=
  useEffect_no_deps true (App props initial_store) editorRef_current
    (mkComponent initial_store None).

(** Events handled from a given component on. *)
Definition run_from (props : Props) (c : Component) (evs : list Event) : Component :=
  fold_left (step props) evs c.

(** A component whose effect returned at its first statement. *)
Definition Detached (c : Component) : Prop :=
  installed c = None /\ view (store c) = None /\ vimMode (store c) = NORMAL.

(** * Properties *)

(** ** The handlers *)

Lemma updateListener_skip (u : ViewUpdate) (s : Store) :
  updateListener u s = (tt, s).
Proof.
  unfold updateListener, when.
  destruct (docChanged u || selectionSet u); reflexivity.
Qed.

(** The closure of the first render, as a function of the key. *)
Lemma keydown_at_mount_exec (e : KeyboardEvent) (v : EditorState) (s : Store) :
  exec (keydown "NORMAL" e v) s =
  mkStore (if key e =? "Escape" then "NORMAL"
           else if (key e =? "i") || (key e =? "a") then "INSERT"
           else if key e =? "v" then "VISUAL"
           else vimMode s)
          (isSidebarOpen s) (view s).
Proof.
  destruct s as [m sb vw], e as [k]; cbn [key].
  unfold keydown, exec, bind, when, setVimMode, ret; cbn.
  destruct (String.eqb_spec k "Escape") as [-> | _]; [reflexivity |].
  destruct (String.eqb_spec k "i") as [-> | _]; [reflexivity |].
  destruct (String.eqb_spec k "a") as [-> | _]; [reflexivity |].
  destruct (k =? "v"); reflexivity.
Qed.

(** Whatever binding the closure holds, the handler answers [false] and
    writes no cell but [vimMode]. *)
Lemma keydown_frame (env : string) (e : KeyboardEvent) (v : EditorState) (s : Store) :
  eval (keydown env e v) s = false /\
  isSidebarOpen (exec (keydown env e v) s) = isSidebarOpen s /\
  view (exec (keydown env e v) s) = view s.
Proof.
  unfold keydown, eval, exec, bind, when, setVimMode, ret.
  destruct (key e =? "Escape"),
           ((env =? "NORMAL") && ((key e =? "i") || (key e =? "a"))),
           ((env =? "NORMAL") && (key e =? "v")); cbn; auto.
Qed.

(** ** Mounting and the life of the handlers *)

Lemma mount_eq (props : Props) :
  mount props = mkComponent (mkStore "NORMAL" false (Some startState))
                            (Some handlers_at_mount).
Proof. reflexivity. Qed.

Lemma mount_Mounted (props : Props) : Mounted (mount props).
Proof. rewrite mount_eq. split; reflexivity. Qed.

Lemma step_eq (props : Props) (c : Component) (ev : Event) :
  step props c ev = handle c ev.
Proof. reflexivity. Qed.

(** A key that vim has handled changes nothing in the component. *)
Lemma step_handled_by_vim (props : Props) (c : Component) (e : KeyboardEvent) :
  step props c (KeyDown e true) = c.
Proof. reflexivity. Qed.

(** The events on a component that holds the handlers of the first
    render. *)
Lemma handle_KeyDown_eq (s : Store) (w : EditorState) (e : KeyboardEvent) :
  view s = Some w ->
  handle (mkComponent s (Some handlers_at_mount)) (KeyDown e false) =
  mkComponent
    (mkStore (if key e =? "Escape" then "NORMAL"
              else if (key e =? "i") || (key e =? "a") then "INSERT"
              else if key e =? "v" then "VISUAL"
              else vimMode s)
             (isSidebarOpen s) (view s))
    (Some handlers_at_mount).
Proof.
  intros Ew. cbn [handle installed store]. rewrite Ew.
  cbn [on_keydown handlers_at_mount].
  rewrite keydown_at_mount_exec. now rewrite Ew.
Qed.

Lemma handle_Updated_eq (s : Store) (u : ViewUpdate) :
  handle (mkComponent s (Some handlers_at_mount)) (Updated u) =
  mkComponent (mkStore (vimMode s) (isSidebarOpen s) (Some (state u)))
              (Some handlers_at_mount).
Proof.
  cbn [handle installed store on_update handlers_at_mount].
  unfold exec, bind, setView. now rewrite updateListener_skip.
Qed.

Lemma handle_Click_eq (s : Store) (i : option Extensions) :
  handle (mkComponent s i) ClickMenu =
    mkComponent (mkStore (vimMode s) true (view s)) i /\
  handle (mkComponent s i) ClickClose =
    mkComponent (mkStore (vimMode s) false (view s)) i.
Proof. split; reflexivity. Qed.

(** A mounted component, taken apart. *)
Lemma Mounted_inv (c : Component) :
  Mounted c ->
  exists s w, c = mkComponent s (Some handlers_at_mount) /\ view s = Some w.
Proof.
  intros [Hi Hv]. destruct c as [s inst]. cbn [installed store] in Hi, Hv.
  subst inst. unfold has_view in Hv.
  destruct (view s) as [w |] eqn:Ew; [| discriminate].
  now exists s, w.
Qed.

Lemma handle_installed (c : Component) (ev : Event) :
  installed (handle c ev) = installed c.
Proof.
  destruct ev as [e [|] | u | |]; cbn; try reflexivity.
  - destruct (installed c) eqn:Hi, (view (store c)); cbn; congruence.
  - destruct (installed c) eqn:Hi; cbn; congruence.
Qed.

Lemma step_Mounted (props : Props) (c : Component) (ev : Event) :
  Mounted c -> Mounted (step props c ev).
Proof.
  intros Hc. destruct (Mounted_inv c Hc) as (s & w & -> & Ew).
  rewrite step_eq.
  destruct ev as [e [|] | u | |].
  - exact Hc.
  - rewrite (handle_KeyDown_eq s w e Ew).
    split; [reflexivity |]. unfold has_view. cbn. now rewrite Ew.
  - rewrite handle_Updated_eq. split; reflexivity.
  - rewrite (proj1 (handle_Click_eq _ _)).
    split; [reflexivity |]. unfold has_view. cbn. now rewrite Ew.
  - rewrite (proj2 (handle_Click_eq _ _)).
    split; [reflexivity |]. unfold has_view. cbn. now rewrite Ew.
Qed.

Lemma fold_step_Mounted (props : Props) (evs : list Event) :
  forall c, Mounted c -> Mounted (fold_left (step props) evs c).
Proof.
  induction evs as [| ev evs IH]; intros c Hc; cbn [fold_left]; [assumption |].
  apply IH. now apply step_Mounted.
Qed.

Lemma run_Mounted (props : Props) (evs : list Event) : Mounted (run props evs).
Proof. apply fold_step_Mounted, mount_Mounted. Qed.

Lemma run_snoc (props : Props) (evs : list Event) (ev : Event) :
  run props (evs ++ [ev]) = step props (run props evs) ev.
Proof. unfold run. now rewrite fold_left_app. Qed.

(** The mode label after a key that reaches the handler, on a mounted
    component. *)
Lemma step_KeyDown_vimMode (props : Props) (c : Component) (e : KeyboardEvent) :
  Mounted c ->
  vimMode (store (step props c (KeyDown e false))) =
  if key e =? "Escape" then "NORMAL"
  else if (key e =? "i") || (key e =? "a") then "INSERT"
  else if key e =? "v" then "VISUAL"
  else vimMode (store c).
Proof.
  intros Hc. destruct (Mounted_inv c Hc) as (s & w & -> & Ew).
  rewrite step_eq, (handle_KeyDown_eq s w e Ew). reflexivity.
Qed.

(** Events other than keys leave the mode label alone. *)
Lemma step_other_vimMode (props : Props) (c : Component) (ev : Event) :
  Mounted c -> is_key_event ev = false ->
  vimMode (store (step props c ev)) = vimMode (store c).
Proof.
  intros Hc. destruct (Mounted_inv c Hc) as (s & w & -> & Ew).
  rewrite step_eq.
  destruct ev as [e h | u | |]; cbn [is_key_event]; try discriminate; intros _.
  - now rewrite handle_Updated_eq.
  - reflexivity.
  - reflexivity.
Qed.

(** The handlers in use are those of the first render, for good: no
    event replaces them. *)
Lemma run_installed (props : Props) (evs : list Event) :
  installed (run props evs) = Some handlers_at_mount.
Proof. apply run_Mounted. Qed.

(** The mode label is always one of the three strings the handler
    writes. *)
Lemma run_vimMode_three (props : Props) (evs : list Event) :
  let m := vimMode (store (run props evs)) in
  m = NORMAL \/ m = INSERT \/ m = VISUAL.
Proof.
  induction evs as [| ev evs IH] using rev_ind; cbn zeta.
  - left. reflexivity.
  - rewrite run_snoc. destruct ev as [e [|] | u | |].
    + rewrite step_handled_by_vim. exact IH.
    + rewrite step_KeyDown_vimMode by apply run_Mounted.
      destruct (key e =? "Escape"); [now left |].
      destruct ((key e =? "i") || (key e =? "a")); [now (right; left) |].
      destruct (key e =? "v"); [now (right; right) | exact IH].
    + rewrite step_other_vimMode; [exact IH | apply run_Mounted | reflexivity].
    + rewrite step_other_vimMode; [exact IH | apply run_Mounted | reflexivity].
    + rewrite step_other_vimMode; [exact IH | apply run_Mounted | reflexivity].
Qed.

(** The status bar is a function of [vimMode] alone. *)
Lemma displayed_eq (props : Props) (c : Component) :
  displayed props c =
  mkStatusBar
    (if vimMode (store c) =? "INSERT" then "bg-blue-600 text-white"
     else if vimMode (store c) =? "VISUAL" then "bg-amber-500 text-white"
     else "bg-black text-white")
    (vimMode (store c))
    "Line 1, Col 1".
Proof. reflexivity. Qed.

(** A key that is none of the four leaves every cell as it is, whether
    it reaches the handler or not. *)
Lemma step_plain_key_store (props : Props) (c : Component)
    (e : KeyboardEvent) (h : bool) :
  Mounted c ->
  (key e =? "Escape") || (key e =? "i") || (key e =? "a") || (key e =? "v") = false ->
  store (step props c (KeyDown e h)) = store c.
Proof.
  intros Hc Hk. destruct h; [reflexivity |].
  destruct (Mounted_inv c Hc) as (s & w & -> & Ew).
  rewrite step_eq, (handle_KeyDown_eq s w e Ew). cbn [store].
  apply orb_false_iff in Hk as [Hk Hv'].
  apply orb_false_iff in Hk as [Hk Ha].
  apply orb_false_iff in Hk as [He Hi'].
  rewrite He, Hi', Ha, Hv'. cbn.
  now destruct s.
Qed.

Lemma step_not_mode_key_vimMode (props : Props) (c : Component) (ev : Event) :
  Mounted c -> is_mode_key ev = false ->
  vimMode (store (step props c ev)) = vimMode (store c).
Proof.
  intros Hc Hk. destruct ev as [e [|] | u | |].
  - reflexivity.
  - cbn [is_mode_key negb andb] in Hk. now rewrite step_plain_key_store.
  - now apply step_other_vimMode.
  - now apply step_other_vimMode.
  - now apply step_other_vimMode.
Qed.

Lemma run_from_no_mode_key (props : Props) (evs : list Event) :
  forall c, Mounted c ->
  forallb (fun ev => negb (is_mode_key ev)) evs = true ->
  vimMode (store (run_from props c evs)) = vimMode (store c).
Proof.
  unfold run_from.
  induction evs as [| ev evs IH]; intros c Hc Hk; cbn [fold_left]; [reflexivity |].
  cbn [forallb] in Hk. apply andb_true_iff in Hk as [Hev Hevs].
  apply negb_true_iff in Hev.
  rewrite IH; [| now apply step_Mounted | exact Hevs].
  now apply step_not_mode_key_vimMode.
Qed.

Lemma step_not_click_sidebar (props : Props) (c : Component) (ev : Event) :
  Mounted c -> is_click ev = false ->
  isSidebarOpen (store (step props c ev)) = isSidebarOpen (store c).
Proof.
  intros Hc. destruct (Mounted_inv c Hc) as (s & w & -> & Ew).
  rewrite step_eq.
  destruct ev as [e [|] | u | |]; cbn [is_click]; try discriminate; intros _.
  - reflexivity.
  - now rewrite (handle_KeyDown_eq s w e Ew).
  - now rewrite handle_Updated_eq.
Qed.

Lemma run_from_no_click (props : Props) (evs : list Event) :
  forall c, Mounted c ->
  forallb (fun ev => negb (is_click ev)) evs = true ->
  isSidebarOpen (store (run_from props c evs)) = isSidebarOpen (store c).
Proof.
  unfold run_from.
  induction evs as [| ev evs IH]; intros c Hc Hk; cbn [fold_left]; [reflexivity |].
  cbn [forallb] in Hk. apply andb_true_iff in Hk as [Hev Hevs].
  apply negb_true_iff in Hev.
  rewrite IH; [| now apply step_Mounted | exact Hevs].
  now apply step_not_click_sidebar.
Qed.

Lemma run_app (props : Props) (evs evs' : list Event) :
  run props (evs ++ evs') = run_from props (run props evs) evs'.
Proof. unfold run, run_from. now rewrite fold_left_app. Qed.

Lemma run_cons_split (props : Props) (evs evs' : list Event) (ev : Event) :
  run props (evs ++ ev :: evs') =
  run_from props (step props (run props evs) ev) evs'.
Proof.
  change (ev :: evs') with ([ev] ++ evs').
  now rewrite app_assoc, run_app, run_snoc.
Qed.

Lemma step_Detached (props : Props) (c : Component) (ev : Event) :
  Detached c -> Detached (step props c ev).
Proof.
  intros (Hi & Hv & Hm). rewrite step_eq.
  destruct ev as [e [|] | u | |]; cbn [handle]; rewrite ?Hi;
    repeat split; cbn; auto.
Qed.

Lemma run_from_Detached (props : Props) (evs : list Event) :
  forall c, Detached c -> Detached (run_from props c evs).
Proof.
  unfold run_from.
  induction evs as [| ev evs IH]; intros c Hc; cbn [fold_left]; [assumption |].
  apply IH. now apply step_Detached.
Qed.

(** ** The claims *)

(** C1 (the code departs from the claim).  The claim: a key acts by the
    mode current when it is pressed, so [v] leads to Visual and [i], [a]
    lead to Insert from Normal only.  The handler tests the [vimMode] of
    the first render, which stays ['NORMAL'].  On a fresh mount the
    first [i] is a vim command and does not reach the handler; a second
    [i], typed as text, sets the label to INSERT, and a [v] typed after
    it sets the label to VISUAL although the label was INSERT.  In
    general, whenever [v], [i] or [a] reaches the handler, the label
    becomes VISUAL or INSERT whatever it was. *)
Theorem keydown_tests_first_render_mode :
  vimMode (store (run [] [command "i"])) = NORMAL /\
  vimMode (store (run [] [command "i"; typed "i"])) = INSERT /\
  vimMode (store (run [] [command "i"; typed "i"; typed "v"])) = VISUAL /\
  vimMode (store (run [] [command "i"; typed "v"])) = VISUAL /\
  vimMode (store (run [] [command "i"; typed "v"; typed "a"])) = INSERT /\
  forall (props : Props) (evs : list Event),
    vimMode (store (step props (run props evs) (typed "v"))) = VISUAL /\
    vimMode (store (step props (run props evs) (typed "i"))) = INSERT /\
    vimMode (store (step props (run props evs) (typed "a"))) = INSERT.
Proof.
  do 5 (split; [reflexivity |]).
  intros props evs. unfold typed.
  rewrite !step_KeyDown_vimMode by apply run_Mounted.
  repeat split.
Qed.

(** C2 (the code departs from the claim).  The claim: in Normal mode the
    keys [i], [a] and [o] lead to Insert.  When the label is NORMAL, the
    key [o] leaves it NORMAL whether or not it reaches the handler,
    which has no case for it; and [i] or [a] handled by vim as a
    command, as on a fresh mount, leaves it NORMAL too, the handler not
    being called. *)
Theorem insert_keys_leave_the_label_Normal
    (props : Props) (evs : list Event) (h : bool) :
  vimMode (store (run props evs)) = NORMAL ->
  vimMode (store (step props (run props evs) (KeyDown (mkKeyboardEvent "o") h)))
    = NORMAL /\
  vimMode (store (step props (run props evs) (command "i"))) = NORMAL /\
  vimMode (store (step props (run props evs) (command "a"))) = NORMAL.
Proof.
  intros Hn. repeat split; try exact Hn.
  rewrite step_plain_key_store; [exact Hn | apply run_Mounted | reflexivity].
Qed.

Lemma insert_keys_leave_the_label_Normal_witness :
  vimMode (store (run [] [])) = NORMAL /\
  vimMode (store (step [] (run [] []) (KeyDown (mkKeyboardEvent "o") true)))
    = NORMAL /\
  vimMode (store (step [] (run [] []) (command "i"))) = NORMAL /\
  vimMode (store (step [] (run [] []) (command "a"))) = NORMAL.
Proof.
  split; [reflexivity |].
  apply (insert_keys_leave_the_label_Normal [] [] true).
  reflexivity.
Defined.

(** C3, as stated, fails once the cursor leaves the first position: with
    the cursor on line 3, column 1, the footer still reads line 1,
    column 1. *)
Lemma footer_position_does_not_follow_cursor :
  let moved := mkViewUpdate false true (mkEditorState (doc startState) 20) in
  let c := run [] [command "j"; command "j"; Updated moved] in
  option_map position_label
    (match view (store c) with Some st => cursor_line_col st | None => None end)
    = Some "Line 3, Col 1" /\
  position_text (displayed [] c) <> "Line 3, Col 1".
Proof. cbn zeta. split; [reflexivity | discriminate]. Qed.

(** C3, amended.  After every sequence of events the status bar shows
    the current [vimMode] as its mode label and the fixed position text
    of line 1, column 1, which is the label of the cursor of
    [startState]; and the update listener, which reads the cursor,
    changes no cell. *)
Theorem status_bar_after_events (props : Props) (evs : list Event) :
  mode_label (displayed props (run props evs)) = vimMode (store (run props evs)) /\
  position_text (displayed props (run props evs)) = "Line 1, Col 1" /\
  option_map position_label (cursor_line_col startState)
    = Some (position_text (displayed props (run props evs))) /\
  forall (u : ViewUpdate) (s : Store), exec (updateListener u) s = s.
Proof.
  rewrite displayed_eq. cbn [mode_label position_text].
  repeat split.
  intros u s. unfold exec. now rewrite updateListener_skip.
Qed.

(** C4, as stated, fails: from the initial Normal mode, the key [R] does
    not lead to Replace, whether vim handles it or it reaches the
    handler. *)
Lemma R_in_Normal_is_not_Replace :
  vimMode (store (run [] [])) = NORMAL /\
  vimMode (store (step [] (run [] []) (command "R"))) <> REPLACE /\
  vimMode (store (step [] (run [] []) (typed "R"))) <> REPLACE.
Proof. split; [reflexivity | split; discriminate]. Qed.

(** C4, amended.  When the mode label is NORMAL, the key [R] leaves it
    NORMAL, which is not REPLACE, whether or not the key reaches the
    handler. *)
Theorem R_in_Normal_stays_Normal (props : Props) (evs : list Event) (h : bool) :
  vimMode (store (run props evs)) = NORMAL ->
  vimMode (store (step props (run props evs) (KeyDown (mkKeyboardEvent "R") h)))
    = NORMAL /\
  vimMode (store (step props (run props evs) (KeyDown (mkKeyboardEvent "R") h)))
    <> REPLACE.
Proof.
  intros Hn.
  rewrite step_plain_key_store; [| apply run_Mounted | reflexivity].
  rewrite Hn. split; [reflexivity | discriminate].
Qed.

Lemma R_in_Normal_stays_Normal_witness :
  let evs := [command "v"; command "Escape"] in
  vimMode (store (run [] evs)) = NORMAL /\
  vimMode (store (step [] (run [] evs) (command "R"))) = NORMAL /\
  vimMode (store (step [] (run [] evs) (command "R"))) <> REPLACE.
Proof.
  cbn zeta. split; [reflexivity |].
  apply (R_in_Normal_stays_Normal [] [command "v"; command "Escape"] true).
  reflexivity.
Defined.

(** C5 (the code departs from the claim).  The claim: Escape in Insert,
    Visual or Replace leads to Normal.  The handler does set NORMAL when
    Escape reaches it, but a key that vim handles does not reach it and
    changes nothing: with the label VISUAL (after [i] as a command and a
    typed [v]) or INSERT (after [i] as a command and a typed [i]), an
    Escape handled by vim, which leaves its insert mode, keeps the label
    as it was. *)
Theorem Escape_handled_by_vim_keeps_the_label :
  vimMode (store (run [] [command "i"; typed "v"])) = VISUAL /\
  vimMode (store (run [] [command "i"; typed "v"; command "Escape"])) = VISUAL /\
  vimMode (store (run [] [command "i"; typed "i"])) = INSERT /\
  vimMode (store (run [] [command "i"; typed "i"; command "Escape"])) = INSERT /\
  (forall (props : Props) (c : Component) (k : string),
     step props c (command k) = c) /\
  (forall (props : Props) (evs : list Event),
     vimMode (store (step props (run props evs) (typed "Escape"))) = NORMAL).
Proof.
  do 5 (split; [reflexivity |]).
  intros props evs. unfold typed.
  now rewrite step_KeyDown_vimMode by apply run_Mounted.
Qed.

(** C7, as stated, fails: mounted with a supplied text, the component
    does not start from that text. *)
Lemma initial_document_is_not_the_supplied_text :
  document_text (mount [("initialDocumentText", "Hello")]) <> Some "Hello".
Proof. discriminate. Qed.

(** C7, amended.  [App] takes no configuration: whatever props it is
    mounted with, the initial document is the text of [startDoc], the
    literal passed to [EditorState.create], with the cursor at offset 0;
    and what is set up at mount stays: after any events the editor
    holds the handlers created at mount. *)
Theorem initial_document_is_startDoc (props : Props) :
  document_text (mount props) = Some startDoc /\
  option_map selection_main_head (view (store (mount props))) = Some 0 /\
  forall evs : list Event, installed (run props evs) = installed (mount props).
Proof.
  split; [| split].
  - rewrite mount_eq. vm_compute. reflexivity.
  - reflexivity.
  - intros evs. now rewrite run_installed.
Qed.

(** C8.  The mode label is NORMAL at the first render and at mount, and
    it stays NORMAL as long as no key event is processed. *)
Theorem initial_mode_is_Normal (props : Props) (evs : list Event) :
  forallb (fun ev => negb (is_key_event ev)) evs = true ->
  vimMode initial_store = NORMAL /\
  vimMode (store (mount props)) = NORMAL /\
  vimMode (store (run props evs)) = NORMAL /\
  mode_label (displayed props (run props evs)) = NORMAL.
Proof.
  intros Hk.
  assert (H : vimMode (store (run props evs)) = NORMAL).
  { induction evs as [| ev evs IH] using rev_ind; [reflexivity |].
    rewrite forallb_app in Hk. apply andb_true_iff in Hk as [Hevs Hev].
    cbn in Hev. rewrite andb_true_r in Hev. apply negb_true_iff in Hev.
    rewrite run_snoc, step_other_vimMode; [now apply IH | apply run_Mounted | exact Hev]. }
  rewrite displayed_eq. cbn [mode_label]. auto.
Qed.

Lemma initial_mode_is_Normal_witness :
  let evs := [ClickMenu;
              Updated (mkViewUpdate false true (mkEditorState (doc startState) 20));
              ClickClose] in
  vimMode initial_store = NORMAL /\
  vimMode (store (mount [])) = NORMAL /\
  vimMode (store (run [] evs)) = NORMAL /\
  mode_label (displayed [] (run [] evs)) = NORMAL.
Proof.
  cbn zeta.
  apply (initial_mode_is_Normal []
           [ClickMenu;
            Updated (mkViewUpdate false true (mkEditorState (doc startState) 20));
            ClickClose]).
  reflexivity.
Defined.

(** C9.  After every sequence of events, key events among them, the
    mode label, which is what the status bar shows, is NORMAL, INSERT or
    VISUAL, and so is not REPLACE. *)
Theorem vimMode_is_never_Replace (props : Props) (evs : list Event) :
  let m := vimMode (store (run props evs)) in
  (m = NORMAL \/ m = INSERT \/ m = VISUAL) /\
  m <> REPLACE /\
  mode_label (displayed props (run props evs)) = m.
Proof.
  cbn zeta. pose proof (run_vimMode_three props evs) as H. cbn zeta in H.
  split; [exact H |]. split; [| reflexivity].
  destruct H as [-> | [-> | ->]]; discriminate.
Qed.

(** C10.  The keydown handler answers [false] for every event, whatever
    [vimMode] its closure holds, and the only cell it can change is
    [vimMode]; so a key event, as far as this handler goes and whether
    or not the key reaches it, changes neither the document nor the
    cursor of the editor, nor the handlers in place. *)
Theorem keydown_only_touches_the_mode_label
    (env : string) (e : KeyboardEvent) (v : EditorState) (s : Store)
    (props : Props) (evs : list Event) (h : bool) :
  eval (keydown env e v) s = false /\
  exec (keydown env e v) s =
    mkStore (vimMode (exec (keydown env e v) s)) (isSidebarOpen s) (view s) /\
  view (store (step props (run props evs) (KeyDown e h))) = view (store (run props evs)) /\
  document_text (step props (run props evs) (KeyDown e h)) = document_text (run props evs) /\
  installed (step props (run props evs) (KeyDown e h)) = installed (run props evs).
Proof.
  destruct (keydown_frame env e v s) as (Hr & Hs & Hv).
  assert (Hview : view (store (step props (run props evs) (KeyDown e h)))
                  = view (store (run props evs))).
  { destruct h; [reflexivity |].
    destruct (Mounted_inv _ (run_Mounted props evs)) as (s0 & w & -> & Ew).
    rewrite step_eq, (handle_KeyDown_eq s0 w e Ew). reflexivity. }
  repeat split.
  - exact Hr.
  - destruct (exec (keydown env e v) s) as [m sb vw] eqn:E. cbn in *. congruence.
  - exact Hview.
  - unfold document_text. now rewrite Hview.
  - rewrite step_eq. apply handle_installed.
Qed.

(** * Further properties of the component *)

(** ** The mode label as a function of the keys *)

(** X1.  The mode label is decided by the last of the keys Escape, [i],
    [a], [v] that reached [App]'s handler, whatever the label was before
    it and whatever other events follow (keys that vim handles, other
    keys, clicks, editor updates): NORMAL after Escape, INSERT after [i]
    or [a], VISUAL after [v]; and NORMAL when none has reached it. *)
Theorem last_mode_key_decides_label
    (props : Props) (evs evs' : list Event) (k : string) :
  forallb (fun ev => negb (is_mode_key ev)) evs' = true ->
  let m := vimMode (store (run props (evs ++ typed k :: evs'))) in
  (k = "Escape" -> m = NORMAL) /\
  (k = "i" \/ k = "a" -> m = INSERT) /\
  (k = "v" -> m = VISUAL) /\
  vimMode (store (run props evs')) = NORMAL.
Proof.
  intros Hk. cbn zeta. rewrite run_cons_split.
  rewrite run_from_no_mode_key;
    [| apply step_Mounted, run_Mounted | exact Hk].
  unfold typed. rewrite step_KeyDown_vimMode by apply run_Mounted.
  cbn [key]. repeat split.
  - intros ->. reflexivity.
  - intros [-> | ->]; reflexivity.
  - intros ->. reflexivity.
  - unfold run. fold (run_from props (mount props) evs').
    rewrite run_from_no_mode_key; [reflexivity | apply mount_Mounted | exact Hk].
Qed.

Lemma last_mode_key_decides_label_witness :
  let before := [command "i"; typed "v"] in
  let after := [typed "o"; typed "R"; command "Escape"; command "v"; ClickMenu] in
  vimMode (store (run [] (before ++ typed "i" :: after))) = INSERT.
Proof.
  cbn zeta.
  apply (last_mode_key_decides_label []
           [command "i"; typed "v"]
           [typed "o"; typed "R"; command "Escape"; command "v"; ClickMenu] "i").
  - reflexivity.
  - left. reflexivity.
Defined.

(** X2.  The handler compares [event.key] with four exact strings: a
    key that is none of Escape, [i], [a], [v] (so also [I], [V], [Esc],
    [o], [R]) changes no cell of the component, whether or not it
    reaches the handler. *)
Theorem other_keys_change_nothing
    (props : Props) (evs : list Event) (k : string) (h : bool) :
  k <> "Escape" -> k <> "i" -> k <> "a" -> k <> "v" ->
  store (step props (run props evs) (KeyDown (mkKeyboardEvent k) h))
    = store (run props evs).
Proof.
  intros He Hi Ha Hv.
  apply step_plain_key_store; [apply run_Mounted |].
  cbn [key].
  apply String.eqb_neq in He, Hi, Ha, Hv.
  now rewrite He, Hi, Ha, Hv.
Qed.

Lemma other_keys_change_nothing_witness :
  store (step [] (run [] [command "i"; typed "v"]) (typed "I"))
    = store (run [] [command "i"; typed "v"]).
Proof.
  apply (other_keys_change_nothing [] [command "i"; typed "v"] "I" false);
    discriminate.
Defined.

(** X3.  What the guard [vimMode === 'NORMAL'] does: a handler closure
    built in a render whose [vimMode] is not ['NORMAL'] reacts to Escape
    only; for every other key, [i], [a] and [v] included, it changes no
    cell. *)
Theorem guarded_handler_reacts_to_Escape_only
    (env : string) (e : KeyboardEvent) (v : EditorState) (s : Store) :
  env <> "NORMAL" ->
  (key e = "Escape" -> vimMode (exec (keydown env e v) s) = NORMAL) /\
  (key e <> "Escape" -> exec (keydown env e v) s = s).
Proof.
  intros Henv. apply String.eqb_neq in Henv.
  unfold keydown, exec, bind, when, setVimMode, ret. rewrite Henv. cbn.
  split.
  - intros ->. reflexivity.
  - intros Hk. apply String.eqb_neq in Hk. rewrite Hk. reflexivity.
Qed.

Lemma guarded_handler_reacts_to_Escape_only_witness :
  let s := mkStore INSERT false (Some startState) in
  (key (mkKeyboardEvent "v") = "Escape" ->
   vimMode (exec (keydown INSERT (mkKeyboardEvent "v") startState) s) = NORMAL) /\
  (key (mkKeyboardEvent "v") <> "Escape" ->
   exec (keydown INSERT (mkKeyboardEvent "v") startState) s = s).
Proof.
  cbn zeta.
  apply (guarded_handler_reacts_to_Escape_only INSERT (mkKeyboardEvent "v") startState
           (mkStore INSERT false (Some startState))).
  discriminate.
Defined.

(** ** The status bar and the sidebar *)

(** X4.  On screen the badge colour tells the mode: after any events
    the badge is blue exactly when the label is INSERT, amber exactly
    when it is VISUAL, and black exactly when it is NORMAL. *)
Theorem badge_class_tells_the_mode (props : Props) (evs : list Event) :
  let c := run props evs in
  let b := mode_class (displayed props c) in
  (b = "bg-blue-600 text-white" <-> vimMode (store c) = INSERT) /\
  (b = "bg-amber-500 text-white" <-> vimMode (store c) = VISUAL) /\
  (b = "bg-black text-white" <-> vimMode (store c) = NORMAL).
Proof.
  cbn zeta. rewrite displayed_eq. cbn [mode_class].
  pose proof (run_vimMode_three props evs) as H. cbn zeta in H.
  unfold NORMAL, INSERT, VISUAL in *.
  destruct H as [-> | [-> | ->]]; cbn;
    repeat split; intros; try reflexivity; discriminate.
Qed.

(** X5.  The sidebar is in the tree exactly when the last click was on
    the menu button: it is closed at first, a click on the menu button
    opens it, a click on its close button closes it, and no key event
    or editor update in between changes it. *)
Theorem sidebar_follows_last_click
    (props : Props) (evs evs' : list Event) :
  forallb (fun ev => negb (is_click ev)) evs' = true ->
  sidebar_shown (App props (store (run props (evs ++ ClickMenu :: evs')))) = true /\
  sidebar_shown (App props (store (run props (evs ++ ClickClose :: evs')))) = false /\
  sidebar_shown (App props (store (run props evs'))) = false.
Proof.
  intros Hk. cbn [App sidebar_shown]. rewrite !run_cons_split.
  rewrite !run_from_no_click by
    (try exact Hk; apply step_Mounted, run_Mounted).
  repeat split.
  unfold run. fold (run_from props (mount props) evs').
  rewrite run_from_no_click; [reflexivity | apply mount_Mounted | exact Hk].
Qed.

Lemma sidebar_follows_last_click_witness :
  let before := [ClickMenu; ClickClose; command "i"] in
  let after := [typed "x"; command "Escape";
                Updated (mkViewUpdate true true (mkEditorState ["x"] 1))] in
  sidebar_shown (App [] (store (run [] (before ++ ClickMenu :: after)))) = true /\
  sidebar_shown (App [] (store (run [] (before ++ ClickClose :: after)))) = false /\
  sidebar_shown (App [] (store (run [] after))) = false.
Proof.
  cbn zeta.
  apply (sidebar_follows_last_click []
           [ClickMenu; ClickClose; command "i"]
           [typed "x"; command "Escape";
            Updated (mkViewUpdate true true (mkEditorState ["x"] 1))]).
  reflexivity.
Defined.

(** X6.  The key handler and the sidebar buttons act on different
    cells: on a mounted component, a key event, whether or not it
    reaches the handler, and a click on the menu button or on the close
    button give the same component in either order. *)
Theorem key_commutes_with_sidebar_clicks
    (props : Props) (c : Component) (e : KeyboardEvent) (h : bool) :
  Mounted c ->
  step props (step props c ClickMenu) (KeyDown e h) =
    step props (step props c (KeyDown e h)) ClickMenu /\
  step props (step props c ClickClose) (KeyDown e h) =
    step props (step props c (KeyDown e h)) ClickClose.
Proof.
  intros Hc. destruct h; [split; reflexivity |].
  destruct (Mounted_inv c Hc) as (s & w & -> & Ew).
  rewrite !step_eq. split.
  - rewrite (handle_KeyDown_eq s w e Ew), !(proj1 (handle_Click_eq _ _)).
    rewrite (handle_KeyDown_eq _ w e) by exact Ew. reflexivity.
  - rewrite (handle_KeyDown_eq s w e Ew), !(proj2 (handle_Click_eq _ _)).
    rewrite (handle_KeyDown_eq _ w e) by exact Ew. reflexivity.
Qed.

Lemma key_commutes_with_sidebar_clicks_witness :
  let c := run [] [command "i"; typed "v"] in
  step [] (step [] c ClickMenu) (typed "i") =
    step [] (step [] c (typed "i")) ClickMenu /\
  step [] (step [] c ClickClose) (typed "i") =
    step [] (step [] c (typed "i")) ClickClose.
Proof.
  cbn zeta.
  apply (key_commutes_with_sidebar_clicks [] (run [] [command "i"; typed "v"])
           (mkKeyboardEvent "i") false).
  split; reflexivity.
Defined.

(** ** The effect's guard *)

(** X7.  The effect returns at once when the container ref is not
    attached, and it is not run again: then no editor is ever created,
    whatever events follow, there is no document, and the mode label
    stays NORMAL.  With the ref attached, mounting is [mount]. *)
Theorem no_container_no_editor (props : Props) (evs : list Event) :
  let c := run_from props (mount_with props false) evs in
  view (store c) = None /\
  installed c = None /\
  document_text c = None /\
  vimMode (store c) = NORMAL /\
  mount_with props true = mount props.
Proof.
  cbn zeta.
  destruct (run_from_Detached props evs (mount_with props false)) as (Hi & Hv & Hm).
  { repeat split. }
  unfold document_text. rewrite Hv. repeat split; assumption.
Qed.

(** ** A handler called twice *)

(** X8.  Each handler of [App] sets its cell to a value that does not
    depend on the cell: on a mounted component, when the same handler
    call happens twice in a row (the same key reaching [App]'s handler
    twice, as a character typed twice in vim's insert mode does, or a
    button clicked twice), the second call changes nothing. *)
Theorem second_handler_call_changes_nothing
    (props : Props) (c : Component) (e : KeyboardEvent) :
  Mounted c ->
  step props (step props c (KeyDown e false)) (KeyDown e false)
    = step props c (KeyDown e false) /\
  step props (step props c ClickMenu) ClickMenu = step props c ClickMenu /\
  step props (step props c ClickClose) ClickClose = step props c ClickClose.
Proof.
  intros Hc. destruct (Mounted_inv c Hc) as (s & w & -> & Ew).
  rewrite !step_eq. repeat split.
  rewrite (handle_KeyDown_eq s w e Ew).
  rewrite (handle_KeyDown_eq _ w e) by exact Ew.
  cbn [vimMode isSidebarOpen view].
  destruct (key e =? "Escape"); [reflexivity |].
  destruct ((key e =? "i") || (key e =? "a")); [reflexivity |].
  destruct (key e =? "v"); reflexivity.
Qed.

Lemma second_handler_call_changes_nothing_witness :
  let c := run [] [command "i"; typed "v"; ClickMenu] in
  step [] (step [] c (typed "i")) (typed "i") = step [] c (typed "i") /\
  step [] (step [] c ClickMenu) ClickMenu = step [] c ClickMenu /\
  step [] (step [] c ClickClose) ClickClose = step [] c ClickClose.
Proof.
  cbn zeta.
  apply (second_handler_call_changes_nothing []
           (run [] [command "i"; typed "v"; ClickMenu]) (mkKeyboardEvent "i")).
  split; reflexivity.
Defined.
